(** * Devlink external stats endpoints: GitHub and LeetCode handlers

    Shallow embedding of the Express handlers of the stats routes
    (GitHub: [/api/github/stats/:username], [/api/github/stats];
    LeetCode: [/api/leetcode/stats/:username], [/api/leetcode/stats]).
    JSON payloads and response bodies are modelled as JavaScript values
    ([jv]); upstream HTTP calls are inputs of the handlers, given as their
    outcome (a payload or a failure). *)

From Stdlib Require Import ZArith List String Ascii Bool Lia Permutation Sorted.
Import ListNotations.
Open Scope Z_scope.
Set Warnings "-register-all".

(** ** JavaScript values *)

(** A JSON-like JavaScript value. [JDate ms] stands for the string
    [new Date(ms).toISOString()]: the ISO rendering is injective, so the
    instant represents the string. *)
Inductive jv : Type :=
| JUndef
| JNull
| JBool (b : bool)
| JNum (z : Z)
| JStr (s : string)
| JDate (ms : Z)
| JArr (xs : list jv)
| JObj (fs : list (string * jv)).

(** [Object.keys o]. *)
Definition keys (o : jv) : list string :=
  match o with
  | JObj fs => map fst fs
  | _ => []
  end.

(** Property access [o.k]; missing properties read as [undefined]. *)
Definition get (k : string) (o : jv) : jv :=
  match o with
  | JObj fs =>
      match find (fun kv => String.eqb (fst kv) k) fs with
      | Some (_, v) => v
      | None => JUndef
      end
  | _ => JUndef
  end.

(** JavaScript truthiness. *)
Definition truthy (v : jv) : bool :=
  match v with
  | JUndef | JNull => false
  | JBool b => b
  | JNum z => negb (Z.eqb z 0)
  | JStr s => negb (String.eqb s ""%string)
  | _ => true
  end.

(** [a || b]. *)
Definition js_or (a b : jv) : jv := if truthy a then a else b.

(** [o?.k] over an optional value. *)
Definition opt_get {A} (f : A -> jv) (o : option A) : jv :=
  match o with Some a => f a | None => JUndef end.

(** [xs || []] over an optional array. *)
Definition or_empty {A} (o : option (list A)) : list A :=
  match o with Some l => l | None => [] end.

(** [arr.slice(0, k)] for [k >= 0]. *)
Definition slice0 {A} (k : Z) (l : list A) : list A := firstn (Z.to_nat k) l.

(** [arr.reduce((acc, x) => acc + f x, 0)]. *)
Definition sum_by {A} (f : A -> Z) (l : list A) : Z :=
  fold_left (fun acc x => acc + f x) l 0.

(** Decimal rendering of a number in a template literal. *)
Fixpoint digits (fuel : nat) (n : Z) (acc : string) : string :=
  match fuel with
  | O => acc
  | S f =>
      let acc' := String (ascii_of_nat (48 + Z.to_nat (n mod 10))) acc in
      if n <? 10 then acc' else digits f (n / 10) acc'
  end.

Definition num_to_string (z : Z) : string :=
  if z <? 0 then ("-" ++ digits (S (Z.to_nat (- z))) (- z) "")%string
  else digits (S (Z.to_nat z)) z "".

(** ** [Array.prototype.sort] with comparator [(a, b) => key b - key a]

    The ECMAScript sort is stable; with a consistent comparator its result is
    the unique stable ordering, computed here by insertion sort. *)
Section StableSortDesc.
Context {A : Type} (key : A -> Z).

Fixpoint insert_desc (x : A) (l : list A) : list A :=
  match l with
  | [] => [x]
  | y :: l' => if key y <=? key x then x :: y :: l'
               else y :: insert_desc x l'
  end.

Fixpoint sort_desc (l : list A) : list A :=
  match l with
  | [] => []
  | x :: l' => insert_desc x (sort_desc l')
  end.
End StableSortDesc.

(** ** Upstream calls *)

(** Failure kinds of an upstream call (axios rejects on a timeout and on a
    non-2xx status; a payload the handler cannot process makes the handler
    throw inside the same [try]). *)
Inductive failure : Type :=
| Timeout
| HttpError (status : Z)
| MalformedPayload.

Inductive result (A : Type) : Type :=
| Ok (a : A)
| Err (e : failure).
Arguments Ok {A} a.
Arguments Err {A} e.

(** The configuration object an outbound axios call is built with; [timeout]
    is [None] when the config has no [timeout] key (axios then waits without
    bound). *)
Record request : Type := mkRequest {
  req_method : string;
  req_url : string;
  req_timeout : option Z
}.

(** The response of a handler: [res.status(status).json(body)]. *)
Record response : Type := mkResponse {
  status : Z;
  body : jv
}.

(** ** Seed-derived selector of the GitHub mock data *)

(** [username.split("").reduce((acc, char) => acc + char.charCodeAt(0), 0)]. *)
Definition seed (username : string) : Z :=
  fold_left (fun acc c => acc + Z.of_nat (nat_of_ascii c))
            (list_ascii_of_string username) 0.

(** [random(min, max) = Math.floor(((seed % 1000) / 1000) * (max - min + 1)) + min],
    read in exact arithmetic. *)
Definition random (sd min max : Z) : Z :=
  (sd mod 1000) * (max - min + 1) / 1000 + min.

(** ** GitHub *)
Module GitHub.

(** [GET https://api.github.com/users/:username]. *)
Module User.
Record t : Type := mk {
  login : jv; name : jv; avatar_url : jv; bio : jv; company : jv;
  blog : jv; location : jv; followers : jv; following : jv;
  public_repos : jv; public_gists : jv
}.
End User.

(** An element of [GET https://api.github.com/users/:username/repos]. *)
Module Repo.
Record t : Type := mk {
  name : jv; description : jv; stargazers_count : Z; forks_count : jv;
  html_url : jv; language : option string; updated_at : jv
}.
End Repo.

(** The two outbound calls of [/stats/:username]. *)
Definition upstream_requests (username : string) : list request :=
  [ mkRequest "GET" ("https://api.github.com/users/" ++ username) (Some 5000);
    mkRequest "GET" ("https://api.github.com/users/" ++ username
                       ++ "/repos?per_page=100&sort=updated") (Some 5000) ]%string.

(** [languages[repo.language] = (languages[repo.language] || 0) + 1]:
    a new key goes at the end, in insertion order. *)
Fixpoint bump (k : string) (m : list (string * Z)) : list (string * Z) :=
  match m with
  | [] => [(k, 1)]
  | (k', c) :: m' => if String.eqb k k' then (k', c + 1) :: m'
                     else (k', c) :: bump k m'
  end.

Definition count_languages (repos : list Repo.t) : list (string * Z) :=
  fold_left (fun m r => match Repo.language r with
                        | Some l => if String.eqb l "" then m else bump l m
                        | None => m
                        end) repos [].

Definition lang_jv (nc : string * Z) : jv :=
  JObj [("name", JStr (fst nc)); ("count", JNum (snd nc))]%string.

Definition repo_jv (r : Repo.t) : jv :=
  JObj [("name", Repo.name r);
        ("description", Repo.description r);
        ("stars", JNum (Repo.stargazers_count r));
        ("forks", Repo.forks_count r);
        ("url", Repo.html_url r);
        ("language", match Repo.language r with Some l => JStr l | None => JNull end);
        ("updatedAt", Repo.updated_at r)]%string.

(** The real-data record; [now] is the reading of [new Date()]. *)
Definition real_stats (userData : User.t) (repos : list Repo.t) (now : Z) : jv :=
  let totalStars := sum_by Repo.stargazers_count repos in
  let languageStats := slice0 5 (sort_desc snd (count_languages repos)) in
  JObj [("username", User.login userData);
        ("name", User.name userData);
        ("avatarUrl", User.avatar_url userData);
        ("bio", User.bio userData);
        ("company", User.company userData);
        ("blog", User.blog userData);
        ("location", User.location userData);
        ("followers", User.followers userData);
        ("following", User.following userData);
        ("publicRepos", User.public_repos userData);
        ("publicGists", User.public_gists userData);
        ("totalStars", JNum totalStars);
        ("languages", JArr (map lang_jv languageStats));
        ("topRepos", JArr (map repo_jv (slice0 5 (sort_desc Repo.stargazers_count repos))));
        ("dataSource", JStr "GitHub API");
        ("lastUpdated", JDate now)]%string.

(** [str.replace(pat, rep)] with a string pattern: first occurrence only. *)
Definition replace_first (pat rep s : string) : string :=
  match String.index 0 pat s with
  | Some i => (substring 0 i s ++ rep
               ++ substring (i + String.length pat) (String.length s) s)%string
  | None => s
  end.

(** [s.charAt(0).toUpperCase() + s.slice(1)] (ASCII letters). *)
Definition ascii_upper (c : ascii) : ascii :=
  let n := nat_of_ascii c in
  if (97 <=? n)%nat && (n <=? 122)%nat then ascii_of_nat (n - 32) else c.

Definition capitalize (s : string) : string :=
  match s with
  | EmptyString => EmptyString
  | String c s' => String (ascii_upper c) s'
  end.

Definition mock_languages : list string :=
  ["JavaScript"; "Python"; "Java"; "TypeScript"; "C++"; "Go"; "Rust"; "PHP"]%string.

Definition repoNames : list string :=
  ["awesome-project"; "web-app"; "api-server"; "mobile-app"; "data-analysis";
   "machine-learning"; "portfolio-website"; "chat-application"; "e-commerce";
   "blog-platform"; "task-manager"; "weather-app"; "social-media";
   "game-engine"]%string.

Definition locations : list string :=
  ["San Francisco"; "New York"; "London"; "Berlin"; "Tokyo"]%string.

Definition day_ms : Z := 24 * 60 * 60 * 1000.

(** [selectedLanguages]: [languages.slice(0, random(3, 6)).map(...)]. *)
Definition selectedLanguages (username : string) : list (string * Z) :=
  let random := random (seed username) in
  map (fun lang => (lang, random 1 15)) (slice0 (random 3 6) mock_languages).

(** One element of the mock [topRepos]; [now] is the [Date.now()] read while
    building it. *)
Definition mock_repo (username : string) (now : Z) (name : string) : jv :=
  let random := random (seed username) in
  let sel := selectedLanguages username in
  JObj [("name", JStr (name ++ "-" ++ num_to_string (random 1 99)));
        ("description", JStr ("A " ++ replace_first "-" " " name
                              ++ " built with modern technologies"));
        ("stars", JNum (random 0 150));
        ("forks", JNum (random 0 50));
        ("url", JStr ("https://github.com/" ++ username ++ "/" ++ name));
        ("language", js_or (opt_get (fun nc => JStr (fst nc))
                              (nth_error sel (Z.to_nat (random 0 (Z.of_nat (List.length sel) - 1)))))
                           (JStr "JavaScript"));
        ("updatedAt", JDate (now - random 1 90 * day_ms))]%string.

(** [.map] over the names, reading the clock once per element; [clock i] is
    the [i]-th clock reading of the request. *)
Fixpoint map_clock {A} (f : Z -> A -> jv) (clock : nat -> Z) (i : nat) (l : list A) : list jv :=
  match l with
  | [] => []
  | x :: l' => f (clock i) x :: map_clock f clock (S i) l'
  end.

Definition mock_names (username : string) : list string :=
  slice0 (random (seed username) 3 8) repoNames.

Definition mock_topRepos (username : string) (clock : nat -> Z) : list jv :=
  map_clock (mock_repo username) clock 0 (mock_names username).

Definition stars_of (r : jv) : Z :=
  match get "stars" r with JNum z => z | _ => 0 end.

(** The mock-data record of the [catch (apiError)] branch. *)
Definition mock_stats (username : string) (clock : nat -> Z) : jv :=
  let random := random (seed username) in
  let topRepos := mock_topRepos username clock in
  JObj [("username", JStr username);
        ("name", JStr (capitalize username));
        ("avatarUrl", JStr ("https://github.com/" ++ username ++ ".png"));
        ("bio", JStr "Software developer passionate about coding and open source");
        ("company", if Z.eqb (random 0 1) 0 then JNull else JStr "Tech Company");
        ("blog", if Z.eqb (random 0 1) 0 then JNull
                 else JStr ("https://" ++ username ++ ".dev"));
        ("location", match nth_error locations (Z.to_nat (random 0 4)) with
                     | Some l => JStr l | None => JUndef end);
        ("followers", JNum (random 10 500));
        ("following", JNum (random 20 200));
        ("publicRepos", JNum (random 5 50));
        ("publicGists", JNum (random 0 20));
        ("totalStars", JNum (sum_by stars_of topRepos));
        ("languages", JArr (map lang_jv (selectedLanguages username)));
        ("topRepos", JArr topRepos);
        ("dataSource", JStr "Mock Data (GitHub API unavailable)");
        ("lastUpdated", JDate (clock (List.length topRepos)))]%string.

(** [router.get("/stats/:username")]: the profile call, then the repository
    call (made only when the first succeeded); any failure falls into the
    mock-data branch. *)
Definition get_by_username (username : string) (user_res : result User.t)
    (repos_res : result (list Repo.t)) (clock : nat -> Z) : response :=
  let githubStats :=
    match user_res with
    | Err _ => mock_stats username clock
    | Ok userData =>
        match repos_res with
        | Err _ => mock_stats username clock
        | Ok repos => real_stats userData repos (clock O)
        end
    end in
  mkResponse 200 (JObj [("success", JBool true); ("data", githubStats)])%string.

End GitHub.

(** ** LeetCode *)
Module LeetCode.

(** An element of [submitStats.acSubmissionNum]. *)
Record ac_entry : Type := mkAc { difficulty : string; count : Z }.

(** An element of a [tagProblemCounts] tier. *)
Record tag : Type := mkTag { tagName : string; problemsSolved : Z }.

Record tag_counts : Type := mkTagCounts {
  advanced : option (list tag);
  intermediate : option (list tag);
  fundamental : option (list tag)
}.

Record submit_stats : Type := mkSubmitStats {
  acSubmissionNum : option (list ac_entry)
}.

Record lc_profile : Type := mkProfile {
  ranking : jv; reputation : jv; realName : jv
}.

Record matched_user : Type := mkMatchedUser {
  username : jv;
  submitStats : option submit_stats;
  profile : option lc_profile;
  badges : option (list jv);
  tagProblemCounts : option tag_counts;
  problemsSolvedBeatsStats : option (list jv)
}.

Record contest_ranking : Type := mkContest {
  attendedContestsCount : jv;
  rating : jv;
  globalRanking : jv;
  badge : option jv  (* [badge] object, given by its [name] *)
}.

(** [response.data.data] of the GraphQL call. *)
Record user_data : Type := mkUserData {
  matchedUser : option matched_user;
  userContestRanking : option contest_ranking;
  recentSubmissionList : option (list jv)
}.

(** The outbound GraphQL call: [axios.post(url, { query, variables })],
    built without a config object. *)
Definition upstream_request (username : string) : request :=
  mkRequest "POST" "https://leetcode.com/graphql" None.

Definition tag_jv (t : tag) : jv :=
  JObj [("tagName", JStr (tagName t)); ("problemsSolved", JNum (problemsSolved t))]%string.

(** [userData.matchedUser?.submitStats?.acSubmissionNum]. *)
Definition ac_list (userData : user_data) : option (list ac_entry) :=
  match matchedUser userData with
  | Some m => match submitStats m with
              | Some s => acSubmissionNum s
              | None => None
              end
  | None => None
  end.

(** [...?.acSubmissionNum?.find((item) => item.difficulty === d)?.count || 0]. *)
Definition solved (d : string) (userData : user_data) : jv :=
  js_or (match ac_list userData with
         | Some l => opt_get (fun e => JNum (count e))
                             (find (fun e => String.eqb (difficulty e) d) l)
         | None => JUndef
         end)
        (JNum 0).

(** The three tiers, concatenated, each defaulting to [[]]. *)
Definition tag_tiers (userData : user_data) : list tag :=
  match matchedUser userData with
  | Some m =>
      match tagProblemCounts m with
      | Some tc => or_empty (advanced tc) ++ or_empty (intermediate tc)
                   ++ or_empty (fundamental tc)
      | None => []
      end
  | None => []
  end.

Definition mu_get (f : matched_user -> jv) (userData : user_data) : jv :=
  opt_get f (matchedUser userData).

Definition mu_list (f : matched_user -> option (list jv)) (userData : user_data) : list jv :=
  match matchedUser userData with Some m => or_empty (f m) | None => [] end.

Definition ucr_get (f : contest_ranking -> jv) (userData : user_data) : jv :=
  opt_get f (userContestRanking userData).

(** The [leetcodeStats] record built from the payload. *)
Definition normalize (userData : user_data) : jv :=
  JObj [("username", mu_get username userData);
        ("ranking", mu_get (fun m => opt_get ranking (profile m)) userData);
        ("reputation", mu_get (fun m => opt_get reputation (profile m)) userData);
        ("realName", mu_get (fun m => opt_get realName (profile m)) userData);
        ("totalSolved", solved "All" userData);
        ("easySolved", solved "Easy" userData);
        ("mediumSolved", solved "Medium" userData);
        ("hardSolved", solved "Hard" userData);
        ("contestAttended", js_or (ucr_get attendedContestsCount userData) (JNum 0));
        ("contestRating", js_or (ucr_get rating userData) (JNum 0));
        ("contestGlobalRanking", js_or (ucr_get globalRanking userData) (JNum 0));
        ("contestBadge", js_or (ucr_get (fun c => opt_get (fun n => n) (badge c)) userData) JNull);
        ("badges", JArr (mu_list badges userData));
        ("beatsPercentage", JArr (mu_list problemsSolvedBeatsStats userData));
        ("recentSubmissions", JArr (or_empty (recentSubmissionList userData)));
        ("topTags", JArr (map tag_jv (slice0 5 (sort_desc problemsSolved (tag_tiers userData)))))]%string.

(** [router.get("/stats/:username")]: one GraphQL call, then [200] with the
    normalized record, or [500] from the [catch]. *)
Definition get_by_username (username : string) (res : result user_data) : response :=
  match res with
  | Ok userData =>
      mkResponse 200 (JObj [("success", JBool true); ("data", normalize userData)])%string
  | Err _ =>
      mkResponse 500 (JObj [("success", JBool false);
                            ("error", JStr "Error fetching LeetCode stats")])%string
  end.

End LeetCode.

(** ** Stored profiles and the profile-bound endpoints *)
Module Profile.

(** An element of [profile.platforms]. *)
Record binding : Type := mkBinding { name : string; username : string }.

Record t : Type := mk { user : Z; platforms : list binding }.

(** [Profile.findOne({ user: id })] over the stored profiles. *)
Definition findOne (store : list t) (id : Z) : option t :=
  find (fun p => Z.eqb (user p) id) store.

(** [profile.platforms.find((platform) => platform.name === n)]. *)
Definition find_platform (n : string) (p : t) : option binding :=
  find (fun b => String.eqb (name b) n) (platforms p).

End Profile.

Definition not_found (msg : string) : response :=
  mkResponse 404 (JObj [("success", JBool false); ("error", JStr msg)])%string.

(** [router.get("/stats", protect, ...)] of the LeetCode routes. *)
Definition leetcode_get_by_profile (store : list Profile.t) (id : Z)
    (res : result LeetCode.user_data) : response :=
  match Profile.findOne store id with
  | None => not_found "Profile not found"
  | Some profile =>
      match Profile.find_platform "LeetCode" profile with
      | None => not_found "LeetCode profile not found"
      | Some b => LeetCode.get_by_username (Profile.username b) res
      end
  end.

(** [username.split("github.com/")[1].replace(/\/$/, "")] when the username
    includes ["github.com/"]. *)
Definition strip_slash (s : string) : string :=
  let n := String.length s in
  match n with
  | O => s
  | S k => if String.eqb (substring k 1 s) "/" then substring 0 k s else s
  end.

Definition github_username (u : string) : string :=
  let sep := "github.com/"%string in
  match String.index 0 sep u with
  | Some i =>
      let rest := substring (i + String.length sep) (String.length u) u in
      let part := match String.index 0 sep rest with
                  | Some j => substring 0 j rest
                  | None => rest
                  end in
      strip_slash part
  | None => u
  end.

(** The forwarding call of the GitHub profile endpoint to its own
    [/stats/:username] route, built without a config object. *)
Definition github_forward_request (base username : string) : request :=
  mkRequest "GET" (base ++ "/api/github/stats/" ++ username) None.

(** [router.get("/stats", protect, ...)] of the GitHub routes: [app url] is
    the answer the server gives to the forwarded [GET url] ([None] when no
    response arrives); axios rejects a non-2xx answer, and the [catch]
    answers [500] with [err.response?.data?.message || "Error fetching GitHub
    stats"]. *)
Definition github_get_by_profile (store : list Profile.t) (id : Z) (base : string)
    (app : string -> option response) : response :=
  match Profile.findOne store id with
  | None => not_found "Profile not found"
  | Some profile =>
      match Profile.find_platform "GitHub" profile with
      | None => not_found "GitHub profile not found"
      | Some b =>
          let username := github_username (Profile.username b) in
          match app (req_url (github_forward_request base username)) with
          | Some r =>
              if (200 <=? status r) && (status r <? 300) then mkResponse 200 (body r)
              else mkResponse 500 (JObj [("success", JBool false);
                                         ("error", js_or (get "message" (body r))
                                                         (JStr "Error fetching GitHub stats"))])%string
          | None =>
              mkResponse 500 (JObj [("success", JBool false);
                                    ("error", JStr "Error fetching GitHub stats")])%string
          end
      end
  end.

(** [s] with the prefix [p] removed, when [s] starts with [p]. *)
Fixpoint strip_prefix (p s : string) : option string :=
  match p, s with
  | EmptyString, _ => Some s
  | String a p', String b s' => if Ascii.eqb a b then strip_prefix p' s' else None
  | String _ _, EmptyString => None
  end.

(** A path segment of ASCII letters, digits, ['-'] and ['_']: Express matches
    it against [:username] and hands it over unchanged (no percent-decoding,
    no dot segment, no further ['/'], ['?'] or ['#']). *)
Definition plain_char (c : ascii) : bool :=
  let n := nat_of_ascii c in
  ((48 <=? n) && (n <=? 57))%nat || ((65 <=? n) && (n <=? 90))%nat
  || ((97 <=? n) && (n <=? 122))%nat || Ascii.eqb c "-"%char || Ascii.eqb c "_"%char.

Definition plain_segment (s : string) : bool :=
  negb (String.eqb s ""%string) && forallb plain_char (list_ascii_of_string s).

(** The server at [base] with the GitHub router mounted at [/api/github] (the
    prefix both the component and the forwarding call use): a [GET] of
    [base/api/github/stats/<seg>] with a plain segment is answered by the
    [/stats/:username] handler; any other URL by [other], the rest of the
    application, which is not part of these sources. *)
Definition github_app (base : string) (user_res : result GitHub.User.t)
    (repos_res : result (list GitHub.Repo.t)) (clock : nat -> Z)
    (other : string -> option response) (url : string) : option response :=
  match strip_prefix (base ++ "/api/github/stats/")%string url with
  | Some seg =>
      if plain_segment seg then Some (GitHub.get_by_username seg user_res repos_res clock)
      else other url
  | None => other url
  end.

(** ** Platforms *)
Inductive platform : Type := PGitHub | PLeetCode.

(** The synthesized record of a platform's [/stats/:username] handler: the
    GitHub handler builds [GitHub.mock_stats] in its fallback branch; the
    LeetCode handler has no synthesis. *)
Definition synthesize (p : platform) (username : string) (clock : nat -> Z) : option jv :=
  match p with
  | PGitHub => Some (GitHub.mock_stats username clock)
  | PLeetCode => None
  end.

(** The outbound requests the stat endpoints issue for a username. *)
Definition outbound_requests (p : platform) (base username : string) : list request :=
  match p with
  | PGitHub => GitHub.upstream_requests username
               ++ [github_forward_request base username]
  | PLeetCode => [LeetCode.upstream_request username]
  end.

(** ** Dashboard stat components (GithubStats, LeetcodeStats)

    Both components share one shape: on mount, when the context holds no
    stats and a profile is loaded, they look up the platform binding and call
    [GET /api/<platform>/stats/<binding.username>]; then they render. *)
Module Client.

Inductive view : Type :=
| Spinner
| ErrorPanel (msg : string)
| Placeholder
| StatsView (stats : jv).

(** The [try] block of [fetchGitHubStats] / [fetchLeetCodeStats]: [None] is
    a request that never got a response; axios rejects a non-2xx response.
    Returns the [error] and [stats] states it leaves. *)
Definition fetch_outcome (failed_msg conn_msg : string) (r : option response)
    : option string * jv :=
  match r with
  | None => (Some conn_msg, JNull)
  | Some r =>
      if (200 <=? status r) && (status r <? 300) then
        if truthy (body r) && truthy (get "success" (body r))
        then (None, get "data" (body r))
        else (Some failed_msg, JNull)
      else (Some conn_msg, JNull)
  end.

(** The render: spinner while loading, then the error panel, then the
    placeholder when [stats] is falsy, else the stats. *)
Definition render (loading isLoading : bool) (error : option string) (stats : jv) : view :=
  if loading || isLoading then Spinner
  else match error with
       | Some msg => ErrorPanel msg
       | None => if truthy stats then StatsView stats else Placeholder
       end.

(** What a component shows once its effect has run: [ctx_stats] is the
    context's stats, [server u] the answer to the request for username [u]. *)
Definition view_after_fetch (platform_name failed_msg conn_msg : string)
    (ctx_stats : jv) (profile : option Profile.t)
    (server : string -> option response) : view :=
  if truthy ctx_stats then render false false None ctx_stats
  else match profile with
       | None => render false false None JNull
       | Some p =>
           match Profile.find_platform platform_name p with
           | None => render false false None JNull
           | Some b =>
               let (err, st) := fetch_outcome failed_msg conn_msg
                                  (server (Profile.username b)) in
               render false false err st
           end
       end.

Definition github_view :=
  view_after_fetch "GitHub" "Failed to load GitHub stats" "Error connecting to GitHub API".


End Client.

(** [Number] value of a field, [0] for anything else. *)
Definition num (v : jv) : Z := match v with JNum z => z | _ => 0 end.

(** The number of repositories whose [language] is [n]. *)
Definition lang_count (n : string) (repos : list GitHub.Repo.t) : nat :=
  List.length (filter (fun r => match GitHub.Repo.language r with
                                | Some l => String.eqb l n
                                | None => false
                                end) repos).

(** [languages[n] || 0] over the language histogram. *)
Definition lookup (n : string) (m : list (string * Z)) : Z :=
  match find (fun kv => String.eqb (fst kv) n) m with
  | Some kv => snd kv
  | None => 0
  end.

(** ** Reference readings used in the statements *)

(** The count of the first entry labelled [d], or [0] when there is none. *)
Definition first_count (d : string) (l : list LeetCode.ac_entry) : Z :=
  match find (fun e => String.eqb (LeetCode.difficulty e) d) l with
  | Some e => LeetCode.count e
  | None => 0
  end.

(** ** Lemmas *)

Lemma js_or_num (z : Z) : js_or (JNum z) (JNum 0) = JNum z.
Proof. unfold js_or, truthy; destruct (Z.eqb_spec z 0); simpl; congruence. Qed.

Lemma sum_by_app {A} (f : A -> Z) (l : list A) (a : Z) :
  fold_left (fun acc x => acc + f x) l a = a + fold_right Z.add 0 (map f l).
Proof.
  revert a; induction l as [|x l IH]; intro a; simpl; [lia|].
  rewrite IH; lia.
Qed.

Section SortDescFacts.
Context {A : Type} (key : A -> Z).

(** The order [sort_desc] produces: non-increasing keys. *)
Definition desc (a b : A) : Prop := key b <= key a.

Lemma insert_desc_perm (x : A) (l : list A) :
  Permutation (x :: l) (insert_desc key x l).
Proof.
  induction l as [|y l IH]; simpl; [reflexivity|].
  destruct (key y <=? key x); [reflexivity|].
  rewrite perm_swap. constructor. exact IH.
Qed.

Lemma sort_desc_perm (l : list A) : Permutation l (sort_desc key l).
Proof.
  induction l as [|x l IH]; simpl; [constructor|].
  rewrite <- insert_desc_perm. constructor. exact IH.
Qed.

Lemma insert_desc_hd (a x : A) (l : list A) :
  HdRel desc a l -> desc a x -> HdRel desc a (insert_desc key x l).
Proof.
  intros H Hx; destruct l as [|y l]; simpl; [constructor; exact Hx|].
  destruct (key y <=? key x); constructor; [exact Hx|].
  exact (HdRel_inv H).
Qed.

Lemma insert_desc_sorted (x : A) (l : list A) :
  Sorted desc l -> Sorted desc (insert_desc key x l).
Proof.
  induction l as [|y l IH]; intro H; simpl.
  - repeat constructor.
  - apply Sorted_inv in H as [Hl Hy].
    destruct (Z.leb_spec (key y) (key x)) as [Le|Gt].
    + constructor; [constructor; assumption|constructor; exact Le].
    + constructor; [exact (IH Hl)|].
      apply insert_desc_hd; [exact Hy|unfold desc; lia].
Qed.

Lemma sort_desc_sorted (l : list A) : Sorted desc (sort_desc key l).
Proof.
  induction l as [|x l IH]; simpl; [constructor|].
  apply insert_desc_sorted, IH.
Qed.

Lemma filter_insert_desc (k : Z) (x : A) (l : list A) :
  filter (fun a => key a =? k) (insert_desc key x l)
  = if key x =? k then x :: filter (fun a => key a =? k) l
    else filter (fun a => key a =? k) l.
Proof.
  induction l as [|y l IH]; simpl; [reflexivity|].
  destruct (Z.leb_spec (key y) (key x)) as [Le|Gt]; simpl; [reflexivity|].
  rewrite IH.
  destruct (Z.eqb_spec (key y) k), (Z.eqb_spec (key x) k); try reflexivity; lia.
Qed.

(** Stability: the elements of one key keep their relative order. *)
Lemma sort_desc_stable (k : Z) (l : list A) :
  filter (fun a => key a =? k) (sort_desc key l) = filter (fun a => key a =? k) l.
Proof.
  induction l as [|x l IH]; simpl; [reflexivity|].
  rewrite filter_insert_desc, IH. reflexivity.
Qed.
End SortDescFacts.

(** Elements of a JSON array, [[]] for anything else. *)
Definition arr (v : jv) : list jv :=
  match v with JArr xs => xs | _ => [] end.

(** The record with every timestamp replaced by the epoch. *)
Fixpoint erase_dates (v : jv) : jv :=
  match v with
  | JDate _ => JDate 0
  | JArr xs => JArr (map erase_dates xs)
  | JObj fs => JObj (map (fun kv => (fst kv, erase_dates (snd kv))) fs)
  | _ => v
  end.

Lemma map_clock_length {A} (f : Z -> A -> jv) clock i (l : list A) :
  List.length (GitHub.map_clock f clock i l) = List.length l.
Proof. revert i; induction l; intro i; simpl; [|rewrite IHl]; reflexivity. Qed.

Lemma in_map_clock {A} (f : Z -> A -> jv) clock i (l : list A) r :
  In r (GitHub.map_clock f clock i l) -> exists j x, In x l /\ r = f (clock j) x.
Proof.
  revert i; induction l as [|x l IH]; intros i H; simpl in H; [contradiction|].
  destruct H as [H|H].
  - exists i, x; split; [left|]; auto.
  - destruct (IH _ H) as (j & y & Hy & ->). exists j, y; split; [right|]; auto.
Qed.

(** An observation of the elements that does not see the clock readings. *)
Lemma map_clock_observe {A B} (g : jv -> B) (f : Z -> A -> jv) c1 c2 i (l : list A) :
  (forall t1 t2 x, g (f t1 x) = g (f t2 x)) ->
  map g (GitHub.map_clock f c1 i l) = map g (GitHub.map_clock f c2 i l).
Proof.
  intro H; revert i; induction l; intro i; simpl; [|rewrite IHl, (H (c1 i) (c2 i))];
  reflexivity.
Qed.

Lemma mock_repo_erase u t1 t2 name :
  erase_dates (GitHub.mock_repo u t1 name) = erase_dates (GitHub.mock_repo u t2 name).
Proof. reflexivity. Qed.

Lemma mock_repo_stars u t1 t2 name :
  GitHub.stars_of (GitHub.mock_repo u t1 name) = GitHub.stars_of (GitHub.mock_repo u t2 name).
Proof. reflexivity. Qed.

(** ** Claims *)

(** C3: with no stored profile, or a stored profile without a binding for
    the platform, the profile-bound endpoint of GitHub and of LeetCode
    answers 404 with [success: false], a not-found error and no data; no
    upstream result is consulted and nothing is synthesized. *)
Theorem get_by_profile_no_binding_404 :
  (forall store id res,
     (forall p, Profile.findOne store id = Some p ->
                Profile.find_platform "LeetCode" p = None) ->
     let r := leetcode_get_by_profile store id res in
     status r = 404 /\ get "success" (body r) = JBool false
     /\ get "data" (body r) = JUndef
     /\ (get "error" (body r) = JStr "Profile not found"
         \/ get "error" (body r) = JStr "LeetCode profile not found"))%string
  /\
  (forall store id base app,
     (forall p, Profile.findOne store id = Some p ->
                Profile.find_platform "GitHub" p = None) ->
     let r := github_get_by_profile store id base app in
     status r = 404 /\ get "success" (body r) = JBool false
     /\ get "data" (body r) = JUndef
     /\ (get "error" (body r) = JStr "Profile not found"
         \/ get "error" (body r) = JStr "GitHub profile not found"))%string.
Proof.
  split.
  - intros store id res H r; subst r; unfold leetcode_get_by_profile.
    destruct (Profile.findOne store id) as [p|] eqn:E.
    + rewrite (H p eq_refl). repeat split; right; reflexivity.
    + repeat split; left; reflexivity.
  - intros store id base app H r; subst r; unfold github_get_by_profile.
    destruct (Profile.findOne store id) as [p|] eqn:E.
    + rewrite (H p eq_refl). repeat split; right; reflexivity.
    + repeat split; left; reflexivity.
Qed.

(** C4: when the GitHub profile call succeeds and the repository call fails,
    the response is exactly the one built from the full mock record: the
    profile payload is not used. *)
Theorem github_partial_failure_full_mock :
  forall username userData e clock,
    GitHub.get_by_username username (Ok userData) (Err e) clock
    = mkResponse 200 (JObj [("success", JBool true);
                            ("data", GitHub.mock_stats username clock)])%string.
Proof. reflexivity. Qed.

(** C6: [totalSolved], [easySolved], [mediumSolved] and [hardSolved] are the
    counts of the first breakdown entries labelled ["All"], ["Easy"],
    ["Medium"], ["Hard"], and [0] when there is no such entry (a missing
    breakdown counts as the empty one). *)
Theorem leetcode_solved_counts :
  forall userData,
    let l := or_empty (LeetCode.ac_list userData) in
    let s := LeetCode.normalize userData in
    (get "totalSolved" s = JNum (first_count "All" l)
     /\ get "easySolved" s = JNum (first_count "Easy" l)
     /\ get "mediumSolved" s = JNum (first_count "Medium" l)
     /\ get "hardSolved" s = JNum (first_count "Hard" l))%string.
Proof.
  intros userData l s; subst l s.
  assert (K : forall d, LeetCode.solved d userData
                        = JNum (first_count d (or_empty (LeetCode.ac_list userData)))).
  { intro d; unfold LeetCode.solved, first_count.
    destruct (LeetCode.ac_list userData) as [l|]; simpl; [|reflexivity].
    destruct (find _ l) as [e|]; simpl; [apply js_or_num | reflexivity]. }
  cbn -[LeetCode.solved]. rewrite !K. repeat split.
Qed.

(** C7: the real-data [totalStars] is the sum of [stargazers_count] over all
    fetched repositories. *)
Theorem github_total_stars :
  forall username userData repos clock,
    get "totalStars"
        (get "data" (body (GitHub.get_by_username username (Ok userData) (Ok repos) clock)))
    = JNum (fold_right Z.add 0 (map GitHub.Repo.stargazers_count repos)).
Proof.
  intros. cbn -[sum_by sort_desc]. unfold sum_by. rewrite sum_by_app. reflexivity.
Qed.

(** C9: the two GitHub profile and repository calls carry a 5000 ms timeout,
    but the LeetCode GraphQL call (and the GitHub profile endpoint's
    forwarding call) are built with no timeout. *)
Theorem outbound_timeouts :
  forall base username,
    map req_timeout (outbound_requests PGitHub base username) = [Some 5000; Some 5000; None]
    /\ map req_timeout (outbound_requests PLeetCode base username) = [None].
Proof. split; reflexivity. Qed.

(** C8: [topTags] is the first five elements of the concatenation of the
    advanced, intermediate and fundamental tiers (each defaulting to [[]])
    reordered by non-increasing [problemsSolved], elements of equal
    [problemsSolved] keeping their concatenation order. *)
Theorem leetcode_top_tags :
  forall userData,
    let tiers := match LeetCode.matchedUser userData with
                 | Some m =>
                     match LeetCode.tagProblemCounts m with
                     | Some tc => or_empty (LeetCode.advanced tc)
                                  ++ or_empty (LeetCode.intermediate tc)
                                  ++ or_empty (LeetCode.fundamental tc)
                     | None => []
                     end
                 | None => []
                 end in
    exists S,
      get "topTags" (LeetCode.normalize userData)
        = JArr (map LeetCode.tag_jv (firstn 5 S))
      /\ Permutation tiers S
      /\ Sorted (desc LeetCode.problemsSolved) S
      /\ (forall k, filter (fun t => LeetCode.problemsSolved t =? k) S
                    = filter (fun t => LeetCode.problemsSolved t =? k) tiers).
Proof.
  intros userData tiers.
  assert (T : LeetCode.tag_tiers userData = tiers) by reflexivity.
  exists (sort_desc LeetCode.problemsSolved tiers).
  split; [|split; [|split]].
  - cbn -[sort_desc LeetCode.tag_tiers]. rewrite T. reflexivity.
  - apply sort_desc_perm.
  - apply sort_desc_sorted.
  - intro k; apply sort_desc_stable.
Qed.

(** C2 (amended): the synthesized GitHub record reads the clock for
    [lastUpdated] and for each [topRepos[i].updatedAt]; with these
    timestamps erased it is a function of the username alone. *)
Theorem github_mock_deterministic_up_to_dates :
  forall username clock1 clock2,
    erase_dates (GitHub.mock_stats username clock1)
    = erase_dates (GitHub.mock_stats username clock2).
Proof.
  intros u c1 c2.
  assert (E : map erase_dates (GitHub.mock_topRepos u c1)
              = map erase_dates (GitHub.mock_topRepos u c2)).
  { apply map_clock_observe; intros; apply mock_repo_erase. }
  assert (S : sum_by GitHub.stars_of (GitHub.mock_topRepos u c1)
              = sum_by GitHub.stars_of (GitHub.mock_topRepos u c2)).
  { unfold sum_by; rewrite !sum_by_app. f_equal. f_equal.
    apply map_clock_observe; intros; apply mock_repo_stars. }
  unfold GitHub.mock_stats.
  cbn -[GitHub.mock_topRepos sum_by random seed GitHub.selectedLanguages].
  rewrite E, S. reflexivity.
Qed.

(** C2 (counterexample): two syntheses for the same platform and username
    at different clock readings are different records. *)
Lemma github_mock_depends_on_clock :
  synthesize PGitHub "alice" (fun _ => 0) <> synthesize PGitHub "alice" (fun _ => 1).
Proof.
  intro H. vm_compute in H. congruence.
Qed.

(** C1 (counterexample): the LeetCode [/stats/:username] handler answers an
    upstream timeout with [500] and [success: false]. *)
Lemma leetcode_upstream_failure_not_absorbed :
  let r := LeetCode.get_by_username "alice" (Err Timeout) in
  status r = 500 /\ get "success" (body r) = JBool false.
Proof. split; reflexivity. Qed.

(** C1 (amended): when the GitHub profile call fails, or it succeeds and the
    repository call fails, [GitHub.get_by_username] answers [200] with
    [success: true] and the mock record, whose [dataSource] marks it as mock
    data; the LeetCode handler answers any upstream failure with [500] and
    [success: false]. *)
Theorem upstream_failure_envelopes :
  (forall username user_res repos_res clock,
     (exists e, user_res = Err e) \/ (exists a e, user_res = Ok a /\ repos_res = Err e) ->
     let r := GitHub.get_by_username username user_res repos_res clock in
     status r = 200 /\ get "success" (body r) = JBool true
     /\ get "data" (body r) = GitHub.mock_stats username clock
     /\ get "dataSource" (get "data" (body r))
        = JStr "Mock Data (GitHub API unavailable)")%string
  /\
  (forall username e,
     LeetCode.get_by_username username (Err e)
     = mkResponse 500 (JObj [("success", JBool false);
                             ("error", JStr "Error fetching LeetCode stats")]))%string.
Proof.
  split; [|reflexivity].
  intros u ur rr clock H r; subst r.
  destruct H as [[e ->]|(a & e & -> & ->)]; repeat split.
Qed.

(** C5: only the GitHub handler synthesizes; its mock record has the same
    field names as the real-data record, and so do the elements of
    [topRepos] and of [languages]. *)
Theorem synthesized_shape_parity :
  (forall username clock, synthesize PLeetCode username clock = None)
  /\
  (forall username clock rec userData repos now,
     synthesize PGitHub username clock = Some rec ->
     let real := GitHub.real_stats userData repos now in
     keys rec = keys real
     /\ (forall m r, In m (arr (get "topRepos" rec)) -> In r (arr (get "topRepos" real)) ->
                     keys m = keys r)
     /\ (forall m r, In m (arr (get "languages" rec)) -> In r (arr (get "languages" real)) ->
                     keys m = keys r))%string.
Proof.
  split; [reflexivity|].
  intros u clock rec userData repos now H real; subst real.
  injection H as <-. split; [reflexivity|split].
  - intros m r Hm Hr.
    change (In m (GitHub.mock_topRepos u clock)) in Hm.
    apply in_map_clock in Hm as (j & x & _ & ->).
    cbn -[sort_desc slice0 GitHub.repo_jv] in Hr.
    apply in_map_iff in Hr as (repo & <- & _). reflexivity.
  - intros m r Hm Hr.
    cbn -[sort_desc slice0 GitHub.lang_jv GitHub.selectedLanguages] in Hm, Hr.
    apply in_map_iff in Hm as (x & <- & _).
    apply in_map_iff in Hr as (y & <- & _). reflexivity.
Qed.

(** C10: every element of the mock [topRepos] carries the same [stars]
    ([random(0, 150)]), the same [forks] ([random(0, 50)]) and the same
    numeric name suffix ([random(1, 99)]). *)
Theorem github_mock_repos_uniform :
  forall username clock r,
    In r (arr (get "topRepos" (GitHub.mock_stats username clock))) ->
    let sd := seed username in
    (get "stars" r = JNum (random sd 0 150)
    /\ get "forks" r = JNum (random sd 0 50)
    /\ exists base, In base GitHub.repoNames
                    /\ get "name" r = JStr (base ++ "-" ++ num_to_string (random sd 1 99)))%string.
Proof.
  intros u clock r H sd; subst sd.
  change (In r (GitHub.mock_topRepos u clock)) in H.
  apply in_map_clock in H as (j & x & Hx & ->).
  split; [reflexivity|split; [reflexivity|]].
  exists x; split; [|reflexivity].
  unfold GitHub.mock_names, slice0 in Hx.
  rewrite <- (firstn_skipn (Z.to_nat (random (seed u) 3 8)) GitHub.repoNames).
  apply in_or_app; left; exact Hx.
Qed.

(** ** Concrete instances *)
Local Open Scope string_scope.

Definition sample_user : GitHub.User.t :=
  GitHub.User.mk (JStr "octocat") (JStr "The Octocat") JNull JNull JNull
                 (JStr "") JNull (JNum 10) (JNum 1) (JNum 3) (JNum 0).

Definition sample_repo (n : string) (stars : Z) : GitHub.Repo.t :=
  GitHub.Repo.mk (JStr n) JNull stars (JNum 0) (JStr ("https://github.com/octocat/" ++ n))
                 (Some "Go") (JDate 0).

Example github_total_stars_5_0_12 :
  get "totalStars"
      (GitHub.real_stats sample_user
         [sample_repo "a" 5; sample_repo "b" 0; sample_repo "c" 12] 0)
  = JNum 17.
Proof. reflexivity. Qed.

Definition sample_lc (ac : list LeetCode.ac_entry) (adv inter fund : list LeetCode.tag) :
  LeetCode.user_data :=
  LeetCode.mkUserData
    (Some (LeetCode.mkMatchedUser (JStr "alice")
             (Some (LeetCode.mkSubmitStats (Some ac))) None None
             (Some (LeetCode.mkTagCounts (Some adv) (Some inter) (Some fund))) None))
    None None.

Example leetcode_no_all_entry :
  get "totalSolved"
      (LeetCode.normalize (sample_lc [LeetCode.mkAc "Easy" 3; LeetCode.mkAc "Hard" 1] [] [] []))
  = JNum 0.
Proof. reflexivity. Qed.

Definition sample_tags : LeetCode.user_data :=
  sample_lc []
    [LeetCode.mkTag "Dynamic Programming" 4; LeetCode.mkTag "Backtracking" 2]
    [LeetCode.mkTag "Hash Table" 4; LeetCode.mkTag "Math" 7]
    [LeetCode.mkTag "Array" 2; LeetCode.mkTag "String" 4; LeetCode.mkTag "Sorting" 1].

Example leetcode_top_tags_sample :
  get "topTags" (LeetCode.normalize sample_tags)
  = JArr (map LeetCode.tag_jv
            [LeetCode.mkTag "Math" 7; LeetCode.mkTag "Dynamic Programming" 4;
             LeetCode.mkTag "Hash Table" 4; LeetCode.mkTag "String" 4;
             LeetCode.mkTag "Backtracking" 2]).
Proof. reflexivity. Qed.

Definition sample_store : list Profile.t :=
  [Profile.mk 1 [Profile.mkBinding "GitHub" "https://github.com/octocat/"];
   Profile.mk 2 [Profile.mkBinding "LeetCode" "alice"]].

Example github_username_from_url :
  github_username "https://github.com/octocat/" = "octocat".
Proof. reflexivity. Qed.

(** ** Witnesses *)

Lemma upstream_failure_envelopes_witness :
  (exists e, @Err GitHub.User.t Timeout = Err e)
  /\ status (GitHub.get_by_username "alice" (Err Timeout) (Err Timeout) (fun _ => 0)) = 200.
Proof.
  split; [exists Timeout; reflexivity|].
  exact (proj1 (proj1 upstream_failure_envelopes "alice" (Err Timeout) (Err Timeout)
                  (fun _ => 0) (or_introl (ex_intro _ Timeout eq_refl)))).
Defined.

Lemma get_by_profile_no_binding_404_witness :
  status (leetcode_get_by_profile sample_store 1 (Err Timeout)) = 404
  /\ status (github_get_by_profile sample_store 2 "http://localhost:5000" (fun _ => None)) = 404.
Proof.
  split.
  - refine (proj1 (proj1 get_by_profile_no_binding_404 sample_store 1 (Err Timeout) _)).
    intros p H; vm_compute in H; injection H as <-; reflexivity.
  - refine (proj1 (proj2 get_by_profile_no_binding_404 sample_store 2
                     "http://localhost:5000" (fun _ => None) _)).
    intros p H; vm_compute in H; injection H as <-; reflexivity.
Defined.

Lemma synthesized_shape_parity_witness :
  synthesize PGitHub "alice" (fun _ => 0) = Some (GitHub.mock_stats "alice" (fun _ => 0))
  /\ keys (GitHub.mock_stats "alice" (fun _ => 0))
     = keys (GitHub.real_stats sample_user [sample_repo "a" 5] 0).
Proof.
  split; [reflexivity|].
  exact (proj1 (proj2 synthesized_shape_parity "alice" (fun _ => 0) _ sample_user
                  [sample_repo "a" 5] 0 eq_refl)).
Defined.

Lemma github_mock_repos_uniform_witness :
  In (GitHub.mock_repo "alice" 0 "awesome-project")
     (arr (get "topRepos" (GitHub.mock_stats "alice" (fun _ => 0))))
  /\ get "stars" (GitHub.mock_repo "alice" 0 "awesome-project")
     = JNum (random (seed "alice") 0 150).
Proof.
  assert (H : In (GitHub.mock_repo "alice" 0 "awesome-project")
                 (arr (get "topRepos" (GitHub.mock_stats "alice" (fun _ => 0))))).
  { vm_compute; left; reflexivity. }
  split; [exact H|].
  exact (proj1 (github_mock_repos_uniform "alice" (fun _ => 0) _ H)).
Defined.

(** ** Further properties of the handlers and components *)

Lemma github_get_by_username_shape u ur rr clock :
  exists d, GitHub.get_by_username u ur rr clock
            = mkResponse 200 (JObj [("success", JBool true); ("data", d)])%string
            /\ (d = GitHub.mock_stats u clock
                \/ exists a repos, d = GitHub.real_stats a repos (clock O)).
Proof.
  unfold GitHub.get_by_username.
  destruct ur as [a|e]; [destruct rr as [repos|e]|].
  - eexists; split; [reflexivity|right; eauto].
  - eexists; split; [reflexivity|left; reflexivity].
  - eexists; split; [reflexivity|left; reflexivity].
Qed.

Lemma append_assoc_str (a b c : string) : ((a ++ b) ++ c = a ++ b ++ c)%string.
Proof. induction a as [|x a IH]; simpl; [reflexivity|rewrite IH; reflexivity]. Qed.

Lemma strip_prefix_app (p s : string) : strip_prefix p (p ++ s) = Some s.
Proof.
  induction p as [|a p IH]; [reflexivity|].
  simpl. rewrite Ascii.eqb_refl. exact IH.
Qed.

(** When the username extracted from the stored GitHub binding is a plain
    path segment, the forwarded call reaches [/stats/:username], and the
    GitHub profile endpoint answers exactly what that handler answers for
    the extracted username. *)
Theorem github_profile_forwards :
  forall store id p b base user_res repos_res clock other,
    Profile.findOne store id = Some p ->
    Profile.find_platform "GitHub" p = Some b ->
    plain_segment (github_username (Profile.username b)) = true ->
    github_get_by_profile store id base (github_app base user_res repos_res clock other)
    = GitHub.get_by_username (github_username (Profile.username b)) user_res repos_res clock.
Proof.
  intros store id p b base ur rr clock other Hp Hb Hs.
  unfold github_get_by_profile; rewrite Hp, Hb.
  unfold github_app, github_forward_request; cbn [req_url].
  rewrite <- append_assoc_str, strip_prefix_app, Hs.
  destruct (github_get_by_username_shape (github_username (Profile.username b)) ur rr clock)
    as (d & -> & _).
  reflexivity.
Qed.

(** A LeetCode payload with [matchedUser: null] (no such user) still gets a
    [200] answer with [success: true]: the solved counts are [0] and the
    badge, beats-percentage and tag lists are empty. *)
Theorem leetcode_unknown_user_zero_stats :
  forall username ucr rsl,
    let r := LeetCode.get_by_username username (Ok (LeetCode.mkUserData None ucr rsl)) in
    let d := get "data" (body r) in
    (status r = 200 /\ get "success" (body r) = JBool true
     /\ get "username" d = JUndef
     /\ get "totalSolved" d = JNum 0 /\ get "easySolved" d = JNum 0
     /\ get "mediumSolved" d = JNum 0 /\ get "hardSolved" d = JNum 0
     /\ get "badges" d = JArr [] /\ get "beatsPercentage" d = JArr []
     /\ get "topTags" d = JArr [])%string.
Proof. intros; repeat split. Qed.

(** Without a contest ranking ([userContestRanking: null]) the contest
    fields default to [0], [0], [0] and [null]. *)
Theorem leetcode_no_contest_defaults :
  forall mu rsl,
    let s := LeetCode.normalize (LeetCode.mkUserData mu None rsl) in
    (get "contestAttended" s = JNum 0 /\ get "contestRating" s = JNum 0
     /\ get "contestGlobalRanking" s = JNum 0 /\ get "contestBadge" s = JNull)%string.
Proof. intros; repeat split. Qed.

(** Neither the real nor the mock GitHub record carries the
    [contributionsLastYear], [contributionHistory] or [recentActivity]
    fields that the GithubStats component can display. *)
Theorem github_stats_no_activity_fields :
  forall username user_res repos_res clock,
    let d := get "data" (body (GitHub.get_by_username username user_res repos_res clock)) in
    (get "contributionsLastYear" d = JUndef /\ get "contributionHistory" d = JUndef
     /\ get "recentActivity" d = JUndef)%string.
Proof.
  intros u ur rr clock d; subst d.
  destruct (github_get_by_username_shape u ur rr clock) as (d & -> & [->|(a & repos & ->)]);
  repeat split.
Qed.

(** For a GitHub binding whose username is a plain path segment, the request
    of the GithubStats component reaches the [/stats/:username] handler, and
    the component ends on the stats view whatever the upstream calls did: it
    shows neither error panel. *)
Theorem github_component_always_shows_stats :
  forall p b base user_res repos_res clock other,
    Profile.find_platform "GitHub" p = Some b ->
    plain_segment (Profile.username b) = true ->
    Client.github_view JNull (Some p)
      (fun u => github_app base user_res repos_res clock other
                  (base ++ "/api/github/stats/" ++ u))
    = Client.StatsView
        (get "data" (body (GitHub.get_by_username (Profile.username b)
                             user_res repos_res clock)))%string.
Proof.
  intros p b base ur rr clock other Hb Hs.
  unfold Client.github_view, Client.view_after_fetch; simpl truthy; cbv iota beta.
  rewrite Hb. unfold github_app.
  rewrite <- append_assoc_str, strip_prefix_app, Hs.
  destruct (github_get_by_username_shape (Profile.username b) ur rr clock)
    as (d & -> & [->|(a & repos & ->)]); reflexivity.
Qed.


Lemma random_bounds sd min max :
  min <= max -> min <= random sd min max <= max.
Proof.
  intro H; unfold random.
  pose proof (Z.mod_pos_bound sd 1000 ltac:(lia)) as Hs.
  set (s := sd mod 1000) in *.
  assert (0 <= s * (max - min + 1) / 1000) by (apply Z.div_pos; nia).
  assert (s * (max - min + 1) / 1000 < max - min + 1)
    by (apply Z.div_lt_upper_bound; nia).
  lia.
Qed.

Lemma random_mod sd1 sd2 min max :
  sd1 mod 1000 = sd2 mod 1000 -> random sd1 min max = random sd2 min max.
Proof. intro H; unfold random; rewrite H; reflexivity. Qed.

Lemma mock_names_length u :
  List.length (GitHub.mock_names u) = Z.to_nat (random (seed u) 3 8).
Proof.
  unfold GitHub.mock_names, slice0. rewrite length_firstn.
  pose proof (random_bounds (seed u) 3 8 ltac:(lia)).
  change (List.length GitHub.repoNames) with 14%nat. lia.
Qed.

Lemma selectedLanguages_length u :
  List.length (GitHub.selectedLanguages u) = Z.to_nat (random (seed u) 3 6).
Proof.
  unfold GitHub.selectedLanguages, slice0. rewrite length_map, length_firstn.
  pose proof (random_bounds (seed u) 3 6 ltac:(lia)).
  change (List.length GitHub.mock_languages) with 8%nat. lia.
Qed.

Lemma mock_topRepos_sum u clock i l :
  sum_by GitHub.stars_of (GitHub.map_clock (GitHub.mock_repo u) clock i l)
  = Z.of_nat (List.length l) * random (seed u) 0 150.
Proof.
  unfold sum_by; rewrite sum_by_app. simpl Z.add.
  revert i; induction l as [|x l IH]; intro i; [reflexivity|].
  simpl map. simpl fold_right. rewrite IH.
  change (GitHub.stars_of (GitHub.mock_repo u (clock i) x)) with (random (seed u) 0 150).
  change (List.length (x :: l)) with (S (List.length l)).
  rewrite Nat2Z.inj_succ. lia.
Qed.

(** The mock GitHub record stays in fixed ranges: 10-500 followers, 20-200
    following, 5-50 public repos, 0-20 gists, 3-8 top repositories with
    0-150 stars and 0-50 forks each, and 3-6 languages counted 1-15 each. *)
Theorem github_mock_bounds :
  forall username clock,
    let m := GitHub.mock_stats username clock in
    (10 <= num (get "followers" m) <= 500
     /\ 20 <= num (get "following" m) <= 200
     /\ 5 <= num (get "publicRepos" m) <= 50
     /\ 0 <= num (get "publicGists" m) <= 20
     /\ (3 <= List.length (arr (get "topRepos" m)) <= 8)%nat
     /\ (forall r, In r (arr (get "topRepos" m)) ->
           0 <= num (get "stars" r) <= 150 /\ 0 <= num (get "forks" r) <= 50)
     /\ (3 <= List.length (arr (get "languages" m)) <= 6)%nat
     /\ (forall l, In l (arr (get "languages" m)) -> 1 <= num (get "count" l) <= 15))%string.
Proof.
  intros u clock m; subst m.
  split; [apply random_bounds; lia|].
  split; [apply random_bounds; lia|].
  split; [apply random_bounds; lia|].
  split; [apply random_bounds; lia|].
  split.
  { change (arr (get "topRepos" (GitHub.mock_stats u clock))) with (GitHub.mock_topRepos u clock).
    unfold GitHub.mock_topRepos; rewrite map_clock_length, mock_names_length.
    pose proof (random_bounds (seed u) 3 8 ltac:(lia)); lia. }
  split.
  { intros r Hr.
    change (In r (GitHub.mock_topRepos u clock)) in Hr.
    apply in_map_clock in Hr as (j & x & _ & ->).
    split; apply random_bounds; lia. }
  split.
  { change (arr (get "languages" (GitHub.mock_stats u clock)))
      with (map GitHub.lang_jv (GitHub.selectedLanguages u)).
    rewrite length_map, selectedLanguages_length.
    pose proof (random_bounds (seed u) 3 6 ltac:(lia)); lia. }
  intros l Hl.
  change (In l (map GitHub.lang_jv (GitHub.selectedLanguages u))) in Hl.
  apply in_map_iff in Hl as (nc & <- & Hnc).
  unfold GitHub.selectedLanguages in Hnc. apply in_map_iff in Hnc as (lang & <- & _).
  apply random_bounds; lia.
Qed.

(** The mock [totalStars] is the number of mock repositories times their
    common star count [random(0, 150)], hence at most 1200. *)
Theorem github_mock_total_stars :
  forall username clock,
    let m := GitHub.mock_stats username clock in
    (get "totalStars" m
     = JNum (Z.of_nat (List.length (arr (get "topRepos" m))) * random (seed username) 0 150)
     /\ 0 <= num (get "totalStars" m) <= 1200)%string.
Proof.
  intros u clock m; subst m.
  assert (E : get "totalStars" (GitHub.mock_stats u clock)
              = JNum (Z.of_nat (List.length (GitHub.mock_names u)) * random (seed u) 0 150)).
  { change (get "totalStars" (GitHub.mock_stats u clock))
      with (JNum (sum_by GitHub.stars_of (GitHub.mock_topRepos u clock))).
    unfold GitHub.mock_topRepos; rewrite mock_topRepos_sum. reflexivity. }
  change (arr (get "topRepos" (GitHub.mock_stats u clock))) with (GitHub.mock_topRepos u clock).
  unfold GitHub.mock_topRepos; rewrite map_clock_length.
  split; [exact E|].
  rewrite E; simpl num. rewrite mock_names_length.
  pose proof (random_bounds (seed u) 3 8 ltac:(lia)).
  pose proof (random_bounds (seed u) 0 150 ltac:(lia)).
  rewrite Z2Nat.id by lia. nia.
Qed.

Lemma in_slice0 {A} (k : Z) (l : list A) x : In x (slice0 k l) -> In x l.
Proof.
  unfold slice0; intro H.
  rewrite <- (firstn_skipn (Z.to_nat k) l). apply in_or_app; left; exact H.
Qed.

(** The index [random(0, selectedLanguages.length - 1)] of the mock
    repositories' [language] is always in range, and every mock repository's
    [language] is the name of the selected language at that index: the
    ["JavaScript"] fallback is never taken. *)
Theorem github_mock_repo_language_selected :
  forall username clock r,
    In r (arr (get "topRepos" (GitHub.mock_stats username clock))) ->
    let sel := GitHub.selectedLanguages username in
    let i := Z.to_nat (random (seed username) 0 (Z.of_nat (List.length sel) - 1)) in
    (i < List.length sel)%nat
    /\ exists nc, nth_error sel i = Some nc /\ get "language" r = JStr (fst nc).
Proof.
  intros u clock r Hr sel i.
  change (In r (GitHub.mock_topRepos u clock)) in Hr.
  apply in_map_clock in Hr as (j & x & _ & ->).
  change (get "language" (GitHub.mock_repo u (clock j) x))
    with (js_or (opt_get (fun nc => JStr (fst nc)) (nth_error sel i)) (JStr "JavaScript")).
  assert (Hlen : List.length sel = Z.to_nat (random (seed u) 3 6))
    by apply selectedLanguages_length.
  pose proof (random_bounds (seed u) 3 6 ltac:(lia)) as B6.
  pose proof (random_bounds (seed u) 0 (Z.of_nat (List.length sel) - 1) ltac:(lia)) as Bi.
  assert (Hi : (i < List.length sel)%nat) by (unfold i; lia).
  split; [exact Hi|].
  destruct (nth_error sel i) as [nc|] eqn:E.
  - exists nc; split; [reflexivity|].
    apply nth_error_In in E.
    assert (Hl : In (fst nc) GitHub.mock_languages).
    { unfold sel, GitHub.selectedLanguages, slice0 in E.
      apply in_map_iff in E as (lang & <- & Hin). exact (in_slice0 _ _ _ Hin). }
    destruct nc as [n c]; simpl in Hl |- *.
    repeat (destruct Hl as [Hl|Hl]; [subst n; reflexivity|]); contradiction.
  - apply nth_error_None in E. lia.
Qed.

(** The mock record sets [company] exactly when it sets [blog]: both are
    chosen by the same [random(0, 1)]. *)
Theorem github_mock_company_iff_blog :
  forall username clock,
    let m := GitHub.mock_stats username clock in
    (get "company" m = JNull <-> get "blog" m = JNull)%string.
Proof.
  intros u clock m; subst m.
  change (get "company" (GitHub.mock_stats u clock))
    with (if Z.eqb (random (seed u) 0 1) 0 then JNull else JStr "Tech Company").
  change (get "blog" (GitHub.mock_stats u clock))
    with (if Z.eqb (random (seed u) 0 1) 0 then JNull else JStr ("https://" ++ u ++ ".dev")).
  destruct (Z.eqb _ 0); split; intro H; solve [reflexivity | discriminate H].
Qed.

(** The seed is the sum of the character codes: it does not depend on the
    order of the characters. *)
Theorem seed_permutation :
  forall u1 u2,
    Permutation (list_ascii_of_string u1) (list_ascii_of_string u2) ->
    seed u1 = seed u2.
Proof.
  intros u1 u2 H. unfold seed. rewrite !(sum_by_app (fun c => Z.of_nat (nat_of_ascii c))).
  f_equal. apply (Permutation_map (fun c => Z.of_nat (nat_of_ascii c))) in H.
  induction H; simpl; lia.
Qed.

(** Two usernames whose seeds agree modulo 1000 (anagrams, for instance) get
    the same mock followers, following, public repos, gists, location,
    total stars, languages and number of repositories. *)
Theorem github_mock_seed_collision :
  forall u1 u2 clock,
    seed u1 mod 1000 = seed u2 mod 1000 ->
    let m1 := GitHub.mock_stats u1 clock in
    let m2 := GitHub.mock_stats u2 clock in
    (get "followers" m1 = get "followers" m2
     /\ get "following" m1 = get "following" m2
     /\ get "publicRepos" m1 = get "publicRepos" m2
     /\ get "publicGists" m1 = get "publicGists" m2
     /\ get "location" m1 = get "location" m2
     /\ get "totalStars" m1 = get "totalStars" m2
     /\ get "languages" m1 = get "languages" m2
     /\ List.length (arr (get "topRepos" m1)) = List.length (arr (get "topRepos" m2)))%string.
Proof.
  intros u1 u2 clock H m1 m2; subst m1 m2.
  assert (R : forall a b, random (seed u1) a b = random (seed u2) a b)
    by (intros; apply random_mod, H).
  assert (L : List.length (GitHub.mock_names u1) = List.length (GitHub.mock_names u2))
    by (rewrite !mock_names_length, R; reflexivity).
  assert (S : forall u, get "totalStars" (GitHub.mock_stats u clock)
              = JNum (Z.of_nat (List.length (GitHub.mock_names u)) * random (seed u) 0 150)).
  { intro u. change (get "totalStars" (GitHub.mock_stats u clock))
      with (JNum (sum_by GitHub.stars_of (GitHub.mock_topRepos u clock))).
    unfold GitHub.mock_topRepos; rewrite mock_topRepos_sum. reflexivity. }
  split; [cbn -[random seed]; rewrite R; reflexivity|].
  split; [cbn -[random seed]; rewrite R; reflexivity|].
  split; [cbn -[random seed]; rewrite R; reflexivity|].
  split; [cbn -[random seed]; rewrite R; reflexivity|].
  split; [cbn -[random seed]; rewrite R; reflexivity|].
  split; [rewrite !S, L, R; reflexivity|].
  split.
  - change (get "languages" (GitHub.mock_stats u1 clock))
      with (JArr (map GitHub.lang_jv (GitHub.selectedLanguages u1))).
    change (get "languages" (GitHub.mock_stats u2 clock))
      with (JArr (map GitHub.lang_jv (GitHub.selectedLanguages u2))).
    unfold GitHub.selectedLanguages; cbv zeta. rewrite !R. reflexivity.
  - change (arr (get "topRepos" (GitHub.mock_stats u1 clock))) with (GitHub.mock_topRepos u1 clock).
    change (arr (get "topRepos" (GitHub.mock_stats u2 clock))) with (GitHub.mock_topRepos u2 clock).
    unfold GitHub.mock_topRepos; rewrite !map_clock_length; exact L.
Qed.

Lemma strongly_sorted_app {A} (R : A -> A -> Prop) (a b : list A) :
  StronglySorted R (a ++ b) ->
  StronglySorted R a /\ (forall x y, In x a -> In y b -> R x y).
Proof.
  induction a as [|z a IH]; simpl; intro H.
  - split; [constructor|intros ? ? []].
  - apply StronglySorted_inv in H as [H Hz].
    destruct (IH H) as [Ha Hab]. split.
    + constructor; [exact Ha|].
      rewrite Forall_forall in *; intros x Hx; apply Hz, in_or_app; left; exact Hx.
    + intros x y [<-|Hx] Hy; [|apply Hab; assumption].
      rewrite Forall_forall in Hz; apply Hz, in_or_app; right; exact Hy.
Qed.

(** The first five of the stable descending sort: at most five elements,
    in non-increasing key order, each with a key at least that of every
    element left out. *)
Lemma top5 {A} (key : A -> Z) (l : list A) :
  let S := sort_desc key l in
  List.length (slice0 5 S) = Nat.min 5 (List.length l)
  /\ Sorted (desc key) (slice0 5 S)
  /\ Permutation l (slice0 5 S ++ skipn 5 S)
  /\ (forall x y, In x (slice0 5 S) -> In y (skipn 5 S) -> key y <= key x)
  /\ (forall k, filter (fun a => Z.eqb (key a) k) (slice0 5 S ++ skipn 5 S)
               = filter (fun a => Z.eqb (key a) k) l).
Proof.
  intro S.
  assert (P : Permutation l S) by apply sort_desc_perm.
  assert (SS : StronglySorted (desc key) (slice0 5 S ++ skipn 5 S)).
  { unfold slice0; rewrite firstn_skipn. apply Sorted_StronglySorted.
    - intros x y z; unfold desc; lia.
    - apply sort_desc_sorted. }
  destruct (strongly_sorted_app _ _ _ SS) as [Hs Hd].
  split; [|split; [|split; [|split]]].
  - unfold slice0; rewrite length_firstn, (Permutation_length P). reflexivity.
  - apply StronglySorted_Sorted, Hs.
  - unfold slice0; rewrite firstn_skipn; exact P.
  - exact Hd.
  - intro k; unfold slice0; rewrite firstn_skipn. apply sort_desc_stable.
Qed.

(** The real [topRepos] are the five most-starred fetched repositories (all
    of them when fewer), in non-increasing star order with ties in upstream
    order: no repository left out has more stars than one listed. *)
Theorem github_real_top_repos :
  forall userData repos now,
    exists top rest,
      get "topRepos" (GitHub.real_stats userData repos now) = JArr (map GitHub.repo_jv top)
      /\ List.length top = Nat.min 5 (List.length repos)
      /\ Permutation repos (top ++ rest)
      /\ Sorted (desc GitHub.Repo.stargazers_count) top
      /\ (forall x y, In x top -> In y rest ->
            GitHub.Repo.stargazers_count y <= GitHub.Repo.stargazers_count x)
      /\ (forall k, filter (fun r => Z.eqb (GitHub.Repo.stargazers_count r) k) (top ++ rest)
                   = filter (fun r => Z.eqb (GitHub.Repo.stargazers_count r) k) repos).
Proof.
  intros userData repos now.
  destruct (top5 GitHub.Repo.stargazers_count repos) as (Hl & Hs & Hp & Hd & Hk).
  eexists _, _; split; [reflexivity|].
  split; [exact Hl|split; [exact Hp|split; [exact Hs|split; [exact Hd|exact Hk]]]].
Qed.

Lemma bump_lookup n k m :
  lookup n (GitHub.bump k m) = lookup n m + (if String.eqb n k then 1 else 0).
Proof.
  induction m as [|[k' c] m IH]; simpl.
  - unfold lookup; simpl. rewrite String.eqb_sym. destruct (String.eqb n k); reflexivity.
  - destruct (String.eqb_spec k k') as [->|Ne]; unfold lookup in *; simpl.
    + destruct (String.eqb_spec k' n) as [->|Ne']; simpl.
      * rewrite String.eqb_refl; reflexivity.
      * destruct (String.eqb_spec n k') as [->|_]; [congruence|lia].
    + destruct (String.eqb_spec k' n) as [->|Ne']; simpl.
      * destruct (String.eqb_spec n k) as [->|_]; [congruence|lia].
      * exact IH.
Qed.

Lemma bump_keys n k m :
  In n (map fst (GitHub.bump k m)) <-> n = k \/ In n (map fst m).
Proof.
  induction m as [|[k' c] m IH]; simpl.
  - intuition.
  - destruct (String.eqb_spec k k') as [->|Ne]; simpl; [intuition|].
    rewrite IH. intuition.
Qed.

Lemma bump_nodup k m :
  NoDup (map fst m) -> NoDup (map fst (GitHub.bump k m)).
Proof.
  induction m as [|[k' c] m IH]; simpl; intro H.
  - repeat constructor; intros [].
  - inversion H as [|? ? Hk Hm]; subst.
    destruct (String.eqb_spec k k') as [->|Ne]; simpl; [exact H|].
    constructor; [|exact (IH Hm)].
    rewrite bump_keys; intros [E|E]; [congruence|contradiction].
Qed.

Lemma nodup_lookup n c m :
  NoDup (map fst m) -> In (n, c) m -> lookup n m = c.
Proof.
  induction m as [|[k' c'] m IH]; simpl; intros H Hin; [contradiction|].
  inversion H as [|? ? Hk Hm]; subst. unfold lookup; simpl.
  destruct Hin as [E|Hin].
  - injection E as -> ->. rewrite String.eqb_refl. reflexivity.
  - destruct (String.eqb_spec k' n) as [->|_].
    + exfalso; apply Hk; apply (in_map fst) in Hin; exact Hin.
    + apply IH; assumption.
Qed.

Definition lang_step (m : list (string * Z)) (r : GitHub.Repo.t) : list (string * Z) :=
  match GitHub.Repo.language r with
  | Some l => if String.eqb l "" then m else GitHub.bump l m
  | None => m
  end.

Lemma lang_step_facts n m r :
  (n <> ""%string -> lookup n (lang_step m r)
     = lookup n m + (if match GitHub.Repo.language r with
                        | Some l => String.eqb l n | None => false end then 1 else 0))
  /\ (In n (map fst (lang_step m r)) <->
      In n (map fst m) \/ (n <> ""%string /\ GitHub.Repo.language r = Some n))
  /\ (NoDup (map fst m) -> NoDup (map fst (lang_step m r))).
Proof.
  unfold lang_step. destruct (GitHub.Repo.language r) as [l|];
    [|split; [intros; lia|split; [intuition congruence|auto]]].
  destruct (String.eqb_spec l "") as [->|Nl].
  - split; [intro Hn; destruct (String.eqb_spec "" n); [congruence|lia]|].
    split; [|auto]. intuition congruence.
  - split; [intro Hn; rewrite bump_lookup, String.eqb_sym; reflexivity|].
    split; [|apply bump_nodup].
    rewrite bump_keys. split.
    + intros [->|H]; [right; split; auto|left; exact H].
    + intros [H|[_ E]]; [right; exact H|left; congruence].
Qed.

Lemma lang_count_cons n r rs :
  lang_count n (r :: rs)
  = ((if match GitHub.Repo.language r with
         | Some l => String.eqb l n | None => false end then 1 else 0)
     + lang_count n rs)%nat.
Proof. unfold lang_count; simpl. destruct (match _ with Some l => _ | None => _ end); reflexivity. Qed.

Lemma lang_fold_facts repos m :
  (forall n, n <> ""%string ->
     lookup n (fold_left lang_step repos m) = lookup n m + Z.of_nat (lang_count n repos))
  /\ (forall n, In n (map fst (fold_left lang_step repos m)) <->
        In n (map fst m) \/ (n <> ""%string /\ (0 < lang_count n repos)%nat))
  /\ (NoDup (map fst m) -> NoDup (map fst (fold_left lang_step repos m))).
Proof.
  revert m; induction repos as [|r rs IH]; intro m; simpl.
  - split; [intros; unfold lang_count; simpl; lia|].
    split; [intro n; unfold lang_count; simpl; intuition lia|auto].
  - destruct (IH (lang_step m r)) as (IH1 & IH2 & IH3).
    split; [|split].
    + intros n Hn. rewrite IH1, (proj1 (lang_step_facts n m r) Hn), lang_count_cons by exact Hn.
      destruct (match GitHub.Repo.language r with Some l => _ | None => _ end); lia.
    + intro n. rewrite IH2, (proj1 (proj2 (lang_step_facts n m r))), lang_count_cons.
      destruct (GitHub.Repo.language r) as [l|] eqn:El; simpl.
      * destruct (String.eqb_spec l n) as [->|Ne]; split; intuition (try congruence; try lia).
      * intuition (try congruence; try lia).
    + intro H. apply IH3, (proj2 (proj2 (lang_step_facts ""%string m r))), H.
Qed.

(** The language histogram of the fetched repositories lists each
    non-empty language exactly once, with the number of repositories that
    have it; repositories with a [null] or empty [language] are not counted. *)
Theorem github_language_histogram :
  forall repos,
    let L := GitHub.count_languages repos in
    NoDup (map fst L)
    /\ (forall n c, In (n, c) L ->
          n <> ""%string /\ c = Z.of_nat (lang_count n repos) /\ (0 < lang_count n repos)%nat)
    /\ (forall n, n <> ""%string -> (0 < lang_count n repos)%nat -> In n (map fst L)).
Proof.
  intros repos L.
  change L with (fold_left lang_step repos []).
  destruct (lang_fold_facts repos []) as (H1 & H2 & H3).
  assert (ND : NoDup (map fst (fold_left lang_step repos []))) by (apply H3; constructor).
  split; [exact ND|split].
  - intros n c Hin.
    assert (Hk : In n (map fst (fold_left lang_step repos []))) by (apply (in_map fst) in Hin; exact Hin).
    apply H2 in Hk as [[]|[Hn Hc]].
    split; [exact Hn|split; [|exact Hc]].
    rewrite <- (nodup_lookup n c _ ND Hin), H1 by exact Hn. reflexivity.
  - intros n Hn Hc. apply H2; right; split; assumption.
Qed.

(** The real [languages] list holds at most five distinct non-empty
    languages with their repository counts, in non-increasing count order;
    a language of the fetched repositories that is left out is used by no
    more repositories than any listed one. *)
Theorem github_real_languages_top5 :
  forall userData repos now,
    exists top,
      get "languages" (GitHub.real_stats userData repos now) = JArr (map GitHub.lang_jv top)
      /\ (List.length top <= 5)%nat
      /\ NoDup (map fst top)
      /\ Sorted (desc snd) top
      /\ (forall n c, In (n, c) top -> n <> ""%string /\ c = Z.of_nat (lang_count n repos))
      /\ (forall n, n <> ""%string -> (0 < lang_count n repos)%nat -> ~ In n (map fst top) ->
            forall c, In c (map snd top) -> Z.of_nat (lang_count n repos) <= c).
Proof.
  intros userData repos now.
  set (L := GitHub.count_languages repos).
  destruct (github_language_histogram repos) as (ND & Hin & Hall); fold L in ND, Hin, Hall.
  destruct (top5 snd L) as (Hl & Hs & Hp & Hd & _).
  set (S := sort_desc snd L) in *.
  exists (slice0 5 S); split; [reflexivity|].
  assert (NDt : NoDup (map fst (slice0 5 S ++ skipn 5 S))).
  { apply (Permutation_NoDup (Permutation_map fst Hp)), ND. }
  rewrite map_app in NDt.
  split; [rewrite Hl; lia|].
  split; [exact (NoDup_app_remove_r _ _ NDt)|].
  split; [exact Hs|].
  split.
  - intros n c H.
    assert (HL : In (n, c) L).
    { apply (Permutation_in _ (Permutation_sym Hp)). apply in_or_app; left; exact H. }
    destruct (Hin _ _ HL) as (? & ? & _); split; assumption.
  - intros n Hn Hc Hnot c Hc'.
    apply Hall in Hc; [|exact Hn].
    apply in_map_iff in Hc as ([n' c0] & E & Hn'). simpl in E; subst n'.
    destruct (Hin _ _ Hn') as (_ & -> & _).
    apply (Permutation_in _ Hp), in_app_or in Hn' as [Ht|Hr].
    + exfalso; apply Hnot; apply (in_map fst) in Ht; exact Ht.
    + apply in_map_iff in Hc' as ([n2 c2] & <- & H2).
      exact (Hd (n2, c2) (n, _) H2 Hr).
Qed.

Lemma substring_all (u : string) (m : nat) :
  (String.length u <= m)%nat -> substring 0 m u = u.
Proof.
  revert m; induction u as [|c u IH]; intros m H; destruct m; simpl in *;
    try reflexivity; try lia.
  f_equal; apply IH; lia.
Qed.

Lemma substring_skip (p s : string) (m : nat) :
  substring (String.length p) m (p ++ s) = substring 0 m s.
Proof.
  induction p as [|c p IH]; simpl; [reflexivity|].
  exact IH.
Qed.

Lemma length_app_str (v s : string) :
  String.length (v ++ s) = (String.length v + String.length s)%nat.
Proof. induction v as [|c v IH]; simpl; [reflexivity|]. rewrite IH; reflexivity. Qed.

Lemma substring_prefix (v s : string) :
  substring 0 (String.length v) (v ++ s) = v.
Proof. induction v as [|c v IH]; simpl; [destruct s; reflexivity|]. rewrite IH; reflexivity. Qed.

Lemma strip_slash_app (v : string) : strip_slash (v ++ "/") = v.
Proof.
  unfold strip_slash. rewrite length_app_str. simpl String.length.
  rewrite Nat.add_1_r.
  rewrite substring_skip. simpl. apply substring_prefix.
Qed.

Lemma split_last (u : string) (k : nat) :
  String.length u = S k -> u = (substring 0 k u ++ substring k 1 u)%string.
Proof.
  revert k; induction u as [|c u IH]; intros k H; simpl in H; [discriminate|].
  injection H as H. destruct k as [|k].
  - destruct u; [reflexivity|discriminate].
  - simpl. f_equal. apply IH; exact H.
Qed.

Lemma strip_slash_no_slash (u : string) :
  (forall v, u <> (v ++ "/")%string) -> strip_slash u = u.
Proof.
  intro H; unfold strip_slash.
  destruct (String.length u) as [|k] eqn:E; [reflexivity|].
  destruct (String.eqb_spec (substring k 1 u) "/") as [Es|_]; [|reflexivity].
  exfalso; apply (H (substring 0 k u)).
  rewrite <- Es; apply split_last; exact E.
Qed.

(** The GitHub profile endpoint recovers the username from a stored profile
    URL: ["https://github.com/" ++ u ++ "/"] and ["https://github.com/" ++ u]
    give [u] when [u] holds no further ["github.com/"] and (for the second)
    does not end in a slash. *)
Theorem github_username_of_url :
  forall u,
    (String.index 0 "github.com/" (u ++ "/") = None ->
     github_username ("https://github.com/" ++ u ++ "/") = u)
    /\ (String.index 0 "github.com/" u = None -> (forall v, u <> v ++ "/") ->
        github_username ("https://github.com/" ++ u) = u).
Proof.
  assert (K : forall w, String.index 0 "github.com/" w = None ->
              github_username ("https://github.com/" ++ w) = strip_slash w).
  { intros w Hw. unfold github_username.
    assert (I : String.index 0 "github.com/" ("https://github.com/" ++ w) = Some 8%nat)
      by (destruct w; reflexivity).
    rewrite I.
    cbv zeta.
    change (8 + String.length "github.com/")%nat with (String.length "https://github.com/").
    rewrite substring_skip, substring_all by (rewrite length_app_str; lia).
    rewrite Hw. reflexivity. }
  intro u; split.
  - intro H. rewrite (K _ H). apply strip_slash_app.
  - intros H Hs. rewrite (K _ H). apply strip_slash_no_slash, Hs.
Qed.

(** ** Witnesses of the further properties *)

Lemma github_profile_forwards_witness :
  github_get_by_profile sample_store 1 "http://localhost:5000"
    (github_app "http://localhost:5000" (Err Timeout) (Err Timeout) (fun _ => 0) (fun _ => None))
  = GitHub.get_by_username "octocat" (Err Timeout) (Err Timeout) (fun _ => 0).
Proof.
  exact (github_profile_forwards sample_store 1 _
           (Profile.mkBinding "GitHub" "https://github.com/octocat/") "http://localhost:5000"
           (Err Timeout) (Err Timeout) (fun _ => 0) (fun _ => None) eq_refl eq_refl eq_refl).
Defined.

Definition sample_profile : Profile.t :=
  Profile.mk 3 [Profile.mkBinding "GitHub" "octocat"; Profile.mkBinding "LeetCode" "alice"].

Lemma github_component_always_shows_stats_witness :
  Client.github_view JNull (Some sample_profile)
    (fun u => github_app "" (Err Timeout) (Err Timeout) (fun _ => 0) (fun _ => None)
                ("" ++ "/api/github/stats/" ++ u))
  = Client.StatsView (GitHub.mock_stats "octocat" (fun _ => 0)).
Proof.
  exact (github_component_always_shows_stats sample_profile (Profile.mkBinding "GitHub" "octocat")
           "" (Err Timeout) (Err Timeout) (fun _ => 0) (fun _ => None) eq_refl eq_refl).
Defined.


Lemma github_mock_repo_language_selected_witness :
  exists nc, nth_error (GitHub.selectedLanguages "alice")
               (Z.to_nat (random (seed "alice") 0
                  (Z.of_nat (List.length (GitHub.selectedLanguages "alice")) - 1))) = Some nc
             /\ get "language" (GitHub.mock_repo "alice" 0 "web-app") = JStr (fst nc).
Proof.
  refine (proj2 (github_mock_repo_language_selected "alice" (fun _ => 0) _ _)).
  vm_compute; right; left; reflexivity.
Defined.

Lemma seed_permutation_witness : seed "dan" = seed "and".
Proof.
  apply seed_permutation. simpl.
  eapply perm_trans; [apply perm_swap|apply perm_skip, perm_swap].
Defined.

Lemma github_mock_seed_collision_witness :
  get "followers" (GitHub.mock_stats "dan" (fun _ => 0))
  = get "followers" (GitHub.mock_stats "and" (fun _ => 0)).
Proof.
  exact (proj1 (github_mock_seed_collision "dan" "and" (fun _ => 0) eq_refl)).
Defined.

Lemma github_username_of_url_witness :
  github_username "https://github.com/octocat/" = "octocat"
  /\ github_username "https://github.com/octocat" = "octocat".
Proof.
  split.
  - exact (proj1 (github_username_of_url "octocat") eq_refl).
  - refine (proj2 (github_username_of_url "octocat") eq_refl _).
    intros v H.
    assert (L : String.length v = 6%nat).
    { apply (f_equal String.length) in H. rewrite length_app_str in H; simpl in H; lia. }
    assert (G : String.get (String.length v) (v ++ "/") = Some "/"%char).
    { clear; induction v as [|c v IH]; simpl; [reflexivity|exact IH]. }
    rewrite <- H, L in G. discriminate G.
Defined.
